(** * Empress: a shallow embedding of [empress.hpp] and [example.cpp]

    The header contains a console logging helper ([empress::logging::log])
    and one operation, [empress::protection::enable], which resolves three
    NT entry points from ntdll, creates a job object, assigns the current
    process to it and writes a 0x1000-byte process memory limit into it.

    The program talks to the operating system only, so the embedding is a
    state monad over a [World] (the characters written to [std::cout], the
    operating-system calls made so far, and the function-local statics of
    [get_nt_api]) run against an [Env] that fixes what the operating system
    answers. *)

From Stdlib Require Import ZArith Bool List Lia Ascii.
From stdpp Require Import base strings gmap.

Local Open Scope Z_scope.

(** ** Machine integers *)

(** [LONG] is a 32-bit signed integer. *)
Definition LONG_MIN : Z := - 2 ^ 31.
Definition LONG_MAX : Z := 2 ^ 31 - 1.

Definition is_LONG (z : Z) : Prop := LONG_MIN <= z <= LONG_MAX.

(** The conversion [(LONG)(z)]: reduction modulo 2^32 into the signed range. *)
Definition LONG_cast (z : Z) : Z := (z + 2 ^ 31) mod 2 ^ 32 - 2 ^ 31.

(** Pointers and handles are integers; [nullptr] is 0. *)
Definition nullptr : Z := 0.

(** [!p] for a pointer [p]. *)
Definition is_null (p : Z) : bool := p =? nullptr.

(** ** The console *)

(** The character written by [std::endl]. *)
Definition endl : string := String "010"%char EmptyString.

(** Number of line terminators in a text, that is the number of lines a
    console shows for it when it ends with a terminator. *)
Fixpoint count_lines (s : string) : nat :=
  match s with
  | EmptyString => 0%nat
  | String c s' => ((if Ascii.eqb c "010"%char then 1 else 0) + count_lines s')%nat
  end.

(** ** The operating system *)

(** A struct of integer fields, addressed by field path. A field that was
    never assigned holds zero, which is what the initializer [= {}] leaves
    in every field. *)
Definition field (r : gmap string Z) (f : string) : Z := default 0 (r !! f).

(** The calls the program makes into the operating system, with their
    arguments. *)
Inductive os_call : Type :=
| call_GetModuleHandleA (name : string)
| call_GetProcAddress (module : Z) (name : string)
| call_NtCreateJobObject (access : Z) (attributes : Z)
| call_NtAssignProcessToJobObject (job : Z) (process : Z)
| call_NtSetInformationJobObject (job : Z) (class : Z) (info : gmap string Z) (len : Z)
| call_CloseHandle (h : Z).

(** The calls that act on a job object: everything except symbol lookup. *)
Definition is_job_call (c : os_call) : bool :=
  match c with
  | call_GetModuleHandleA _ | call_GetProcAddress _ _ => false
  | _ => true
  end.

Definition is_CloseHandle (c : os_call) : bool :=
  match c with
  | call_CloseHandle _ => true
  | _ => false
  end.

Definition is_NtSetInformationJobObject (c : os_call) : bool :=
  match c with
  | call_NtSetInformationJobObject _ _ _ _ => true
  | _ => false
  end.

(** What [<Windows.h>] declares and the header uses: three constants and
    the size of [JOBOBJECT_EXTENDED_LIMIT_INFORMATION]. The Windows SDK is
    not part of the repository, so the embedding takes them as parameters. *)
Record WindowsSDK : Type := {
  MAXIMUM_ALLOWED : Z;
  JOB_OBJECT_LIMIT_PROCESS_MEMORY : Z;
  JobObjectExtendedLimitInformation : Z;
  sizeof_JOBOBJECT_EXTENDED_LIMIT_INFORMATION : Z
}.

(** The three instantiations of the template [get_nt_api<T>]. *)
Inductive nt_api_t : Type :=
| NtCreateJobObject_t
| NtAssignProcessToJobObject_t
| NtSetInformationJobObject_t.

Global Instance nt_api_t_eq_dec : EqDecision nt_api_t.
Proof. solve_decision. Defined.

(** The answers of the operating system during one run. Each NT primitive
    is called at most once by [enable], so its answer is one status (and,
    for the creation call, what it stores through the [PHANDLE] argument,
    if anything). *)
Record Env : Type := {
  GetModuleHandleA : string -> Z;
  GetProcAddress : Z -> string -> Z;
  NtCreateJobObject_status : Z;
  NtCreateJobObject_handle : option Z;
  NtAssignProcessToJobObject_status : Z;
  NtSetInformationJobObject_status : Z;
  cin_get : Z
}.

(** The status codes are values of type [NTSTATUS], that is [LONG]. *)
Definition Env_ok (e : Env) : Prop :=
  is_LONG (NtCreateJobObject_status e) /\
  is_LONG (NtAssignProcessToJobObject_status e) /\
  is_LONG (NtSetInformationJobObject_status e).

(** The state a run threads through: console output, the calls made, and
    the static local [ntdll] of each instantiation of [get_nt_api]
    ([None] until its initializer has run). *)
Record World : Type := {
  cout : string;
  calls : list os_call;
  ntdll_static : nt_api_t -> option Z
}.

(** ** A state monad over [World] *)

Definition M (A : Type) : Type := World -> A * World.

Global Instance M_ret : MRet M := fun A (a : A) w => (a, w).

Global Instance M_bind : MBind M :=
  fun A B (k : A -> M B) (m : M A) w => let (a, w') := m w in k a w'.

Definition write (s : string) : M unit :=
  fun w => (tt, {| cout := cout w +:+ s; calls := calls w; ntdll_static := ntdll_static w |}).

Definition os (c : os_call) : M unit :=
  fun w => (tt, {| cout := cout w; calls := calls w ++ [c]; ntdll_static := ntdll_static w |}).

(** A function-local [static const auto ntdll = init;] of instantiation
    [T]: the initializer runs the first time control passes the
    declaration, later passes read the stored value. *)
Definition static_ntdll (T : nt_api_t) (init : M Z) : M Z :=
  fun w =>
    match ntdll_static w T with
    | Some h => (h, w)
    | None =>
        let (h, w') := init w in
        (h, {| cout := cout w'; calls := calls w';
               ntdll_static :=
                 fun T' => if decide (T' = T) then Some h else ntdll_static w' T' |})
    end.

(** ** Calls into the operating system *)

Section os_calls.
Context (e : Env).

Definition os_GetModuleHandleA (name : string) : M Z :=
  os (call_GetModuleHandleA name);; mret (GetModuleHandleA e name).

Definition os_GetProcAddress (module : Z) (name : string) : M Z :=
  os (call_GetProcAddress module name);; mret (GetProcAddress e module name).

(** [NtCreateJobObject(&job, access, attributes)]: returns the status and
    the value of [job] after the call. *)
Definition os_NtCreateJobObject (job access attributes : Z) : M (Z * Z) :=
  os (call_NtCreateJobObject access attributes);;
  mret (NtCreateJobObject_status e, default job (NtCreateJobObject_handle e)).

Definition os_NtAssignProcessToJobObject (job process : Z) : M Z :=
  os (call_NtAssignProcessToJobObject job process);;
  mret (NtAssignProcessToJobObject_status e).

Definition os_NtSetInformationJobObject
    (job class : Z) (info : gmap string Z) (len : Z) : M Z :=
  os (call_NtSetInformationJobObject job class info len);;
  mret (NtSetInformationJobObject_status e).

(** [CloseHandle(h)]; every caller discards the result. *)
Definition os_CloseHandle (h : Z) : M unit :=
  os (call_CloseHandle h).

End os_calls.

(** ** [namespace empress::logging] *)

Module logging.

(** [enum class log_level { info, warning, error }]. The underlying type
    of a scoped enumeration is [int] and the enumerators have the values
    0, 1 and 2; a [log_level] can hold any value of the underlying type,
    also one that is no enumerator. *)
Definition log_level : Type := Z.
Definition info : log_level := 0.
Definition warning : log_level := 1.
Definition error : log_level := 2.

(** The [switch] of [log]: [prefix] is initialized with [""] and assigned
    in the case that matches [level]; there is no default case, so for a
    value that is no enumerator it stays empty. *)
Definition prefix (level : log_level) : string :=
  if level =? info then "[INFO] "
  else if level =? warning then "[WARN] "
  else if level =? error then "[ERROR] "
  else "".

(** [log(level, fmt, args...)]: one statement,
    [std::cout << prefix << std::format(fmt, args...) << std::endl].
    [message] is the value of [std::format(fmt, args...)]. *)
Definition log (level : log_level) (message : string) : M unit :=
  write (prefix level);; write message;; write endl.

End logging.

(** ** [class empress::protection] *)

Module protection.
Import logging.

(** [#define NT_SUCCESS(Status) (((NTSTATUS)(Status)) >= 0)] *)
Definition NT_SUCCESS (Status : Z) : bool := LONG_cast Status >=? 0.

(** [#define NtCurrentProcess() ((HANDLE)(LONG_PTR)-1)] *)
Definition NtCurrentProcess : Z := -1.

Section with_os.
Context (sdk : WindowsSDK) (e : Env).

(** [get_nt_api<T>(name)]. Each instantiation of the template has its own
    static local [ntdll]; the [reinterpret_cast] leaves the pointer value
    as it is. *)
Definition get_nt_api (T : nt_api_t) (name : string) : M Z :=
  ntdll ← static_ntdll T (os_GetModuleHandleA e "ntdll.dll");
  os_GetProcAddress e ntdll name.

(** [enable()]. The three NT calls go through the pointers just resolved;
    [limits] is the zero-initialized record with two fields assigned. *)
Definition enable : M bool :=
  NtCreateJobObject ← get_nt_api NtCreateJobObject_t "NtCreateJobObject";
  NtAssignProcessToJobObject ←
    get_nt_api NtAssignProcessToJobObject_t "NtAssignProcessToJobObject";
  NtSetInformationJobObject ←
    get_nt_api NtSetInformationJobObject_t "NtSetInformationJobObject";
  if is_null NtCreateJobObject || is_null NtAssignProcessToJobObject
     || is_null NtSetInformationJobObject then
    log error "Failed to get NT API functions";;
    mret false
  else
    let job := nullptr in
    '(status, job) ← os_NtCreateJobObject e job (MAXIMUM_ALLOWED sdk) nullptr;
    if negb (NT_SUCCESS status) then
      log error "Failed to create job object";;
      mret false
    else
      status ← os_NtAssignProcessToJobObject e job NtCurrentProcess;
      if negb (NT_SUCCESS status) then
        os_CloseHandle job;;
        log error "Failed to assign process to job";;
        mret false
      else
        let limits : gmap string Z := ∅ in
        let limits := <["ProcessMemoryLimit" := 0x1000]> limits in
        let limits :=
          <["BasicLimitInformation.LimitFlags" :=
              JOB_OBJECT_LIMIT_PROCESS_MEMORY sdk]> limits in
        status ← os_NtSetInformationJobObject e job
                   (JobObjectExtendedLimitInformation sdk) limits
                   (sizeof_JOBOBJECT_EXTENDED_LIMIT_INFORMATION sdk);
        if negb (NT_SUCCESS status) then
          os_CloseHandle job;;
          log error "Failed to set job limits";;
          mret false
        else
          log info "Memory protection active";;
          mret true.

End with_os.

End protection.

(** ** [example.cpp] *)

Section example.
Import logging.
Context (sdk : WindowsSDK) (e : Env).

Definition enable_protection : M unit :=
  protection.enable sdk e ≫= λ ok : bool,
  if ok then log info "Protection active!"
  else log error "Failed to set protection!".

(** [main] returns what [std::cin.get()] returns. *)
Definition main : M Z :=
  enable_protection;;
  log info "Press ENTER to close program.";;
  mret (cin_get e).

End example.

(** ** Concrete runs *)

(** The values of the parameters in the Windows SDK for a 64-bit target
    ([winnt.h]); used for the concrete runs below only. *)
Definition sdk_x64 : WindowsSDK := {|
  MAXIMUM_ALLOWED := 0x02000000;
  JOB_OBJECT_LIMIT_PROCESS_MEMORY := 0x00000100;
  JobObjectExtendedLimitInformation := 9;
  sizeof_JOBOBJECT_EXTENDED_LIMIT_INFORMATION := 144
|}.

(** An operating system in which ntdll is loaded at [0x7ff800000000],
    every symbol except [missing] resolves, the creation call stores the
    handle [0x7c] and the three primitives return the given statuses. *)
Definition env_sample (missing : list string) (create assign set : Z) : Env := {|
  GetModuleHandleA := fun _ => 0x7ff800000000;
  GetProcAddress := fun h name =>
    if bool_decide (name ∈ missing) then nullptr else h + 0x1000;
  NtCreateJobObject_status := create;
  NtCreateJobObject_handle := Some 0x7c;
  NtAssignProcessToJobObject_status := assign;
  NtSetInformationJobObject_status := set;
  cin_get := 10
|}.

(** The state at process start: nothing written, no call made, no static
    initialized. *)
Definition world0 : World :=
  {| cout := ""; calls := []; ntdll_static := fun _ => None |}.

(** A second operating system: ntdll at another address, another handle
    for the job object, the same statuses. *)
Definition env_other (create assign set : Z) : Env := {|
  GetModuleHandleA := fun _ => 0x7ffa00000000;
  GetProcAddress := fun h name => h + 0x2000 + Z.of_nat (String.length name);
  NtCreateJobObject_status := create;
  NtCreateJobObject_handle := Some 0x120;
  NtAssignProcessToJobObject_status := assign;
  NtSetInformationJobObject_status := set;
  cin_get := -1
|}.

(** A state later in the life of the process: text on the console, and the
    statics of [get_nt_api] already initialized. *)
Definition world_warm : World :=
  {| cout := "[INFO] started" +:+ endl;
     calls := [call_GetModuleHandleA "ntdll.dll"];
     ntdll_static := fun _ => Some 0x7ffa00000000 |}.

(** ** Observations on a run *)

(** The line a call [log(level, message)] writes. *)
Definition log_line (level : logging.log_level) (message : string) : string :=
  logging.prefix level +:+ message +:+ endl.

(** The calls made between the states [w] and [w']. *)
Definition new_calls (w w' : World) : list os_call :=
  drop (length (calls w)) (calls w').

(** The job-object calls among them. *)
Definition job_calls (w w' : World) : list os_call :=
  List.filter is_job_call (new_calls w w').

(** The module handle [get_nt_api<T>] passes to [GetProcAddress] when it
    is called in state [w]. *)
Definition ntdll_of (e : Env) (w : World) (T : nt_api_t) : Z :=
  default (GetModuleHandleA e "ntdll.dll") (ntdll_static w T).

(** The pointer [get_nt_api<T>(name)] returns in state [w]. *)
Definition resolve (e : Env) (w : World) (T : nt_api_t) (name : string) : Z :=
  GetProcAddress e (ntdll_of e w T) name.

(** The calls [get_nt_api<T>(name)] makes in state [w]. *)
Definition resolve_calls (e : Env) (w : World) (T : nt_api_t) (name : string)
    : list os_call :=
  match ntdll_static w T with
  | None => [call_GetModuleHandleA "ntdll.dll"]
  | Some _ => []
  end ++ [call_GetProcAddress (ntdll_of e w T) name].

(** The three pointers [enable] looks up. *)
Definition resolve_NtCreateJobObject (e : Env) (w : World) : Z :=
  resolve e w NtCreateJobObject_t "NtCreateJobObject".
Definition resolve_NtAssignProcessToJobObject (e : Env) (w : World) : Z :=
  resolve e w NtAssignProcessToJobObject_t "NtAssignProcessToJobObject".
Definition resolve_NtSetInformationJobObject (e : Env) (w : World) : Z :=
  resolve e w NtSetInformationJobObject_t "NtSetInformationJobObject".

Definition all_resolved (e : Env) (w : World) : Prop :=
  resolve_NtCreateJobObject e w ≠ nullptr ∧
  resolve_NtAssignProcessToJobObject e w ≠ nullptr ∧
  resolve_NtSetInformationJobObject e w ≠ nullptr.

(** The handle [enable] holds in [job] after the creation call. *)
Definition job_handle (e : Env) : Z :=
  default nullptr (NtCreateJobObject_handle e).

(** The calls of the three lookups at the start of [enable]. *)
Definition lookup_calls (e : Env) (w : World) : list os_call :=
  resolve_calls e w NtCreateJobObject_t "NtCreateJobObject" ++
  resolve_calls e w NtAssignProcessToJobObject_t "NtAssignProcessToJobObject" ++
  resolve_calls e w NtSetInformationJobObject_t "NtSetInformationJobObject".

(** The record [enable] passes to [NtSetInformationJobObject]. *)
Definition enable_limits (sdk : WindowsSDK) : gmap string Z :=
  <["BasicLimitInformation.LimitFlags" := JOB_OBJECT_LIMIT_PROCESS_MEMORY sdk]>
    (<["ProcessMemoryLimit" := 0x1000]> ∅).

(** The three calls through the resolved pointers, as [enable] makes them. *)
Definition create_call (sdk : WindowsSDK) : os_call :=
  call_NtCreateJobObject (MAXIMUM_ALLOWED sdk) nullptr.
Definition assign_call (e : Env) : os_call :=
  call_NtAssignProcessToJobObject (job_handle e) protection.NtCurrentProcess.
Definition set_call (sdk : WindowsSDK) (e : Env) : os_call :=
  call_NtSetInformationJobObject (job_handle e)
    (JobObjectExtendedLimitInformation sdk) (enable_limits sdk)
    (sizeof_JOBOBJECT_EXTENDED_LIMIT_INFORMATION sdk).
Definition close_call (e : Env) : os_call :=
  call_CloseHandle (job_handle e).

(** The five ways a run of [enable] ends: the four kinds of failure and
    success. *)
Inductive outcome : Type :=
| ApiResolutionFailed
| ContainerCreationFailed
| ProcessAttachFailed
| LimitApplicationFailed
| Success.

(** Which way a run started in state [w] ends, read off the answers of the
    operating system in the order [enable] asks for them. *)
Definition outcome_of (e : Env) (w : World) : outcome :=
  if is_null (resolve_NtCreateJobObject e w)
     || is_null (resolve_NtAssignProcessToJobObject e w)
     || is_null (resolve_NtSetInformationJobObject e w)
  then ApiResolutionFailed
  else if negb (protection.NT_SUCCESS (NtCreateJobObject_status e))
  then ContainerCreationFailed
  else if negb (protection.NT_SUCCESS (NtAssignProcessToJobObject_status e))
  then ProcessAttachFailed
  else if negb (protection.NT_SUCCESS (NtSetInformationJobObject_status e))
  then LimitApplicationFailed
  else Success.

Definition outcome_result (o : outcome) : bool :=
  match o with Success => true | _ => false end.

Definition outcome_line (o : outcome) : string :=
  match o with
  | ApiResolutionFailed => log_line logging.error "Failed to get NT API functions"
  | ContainerCreationFailed => log_line logging.error "Failed to create job object"
  | ProcessAttachFailed => log_line logging.error "Failed to assign process to job"
  | LimitApplicationFailed => log_line logging.error "Failed to set job limits"
  | Success => log_line logging.info "Memory protection active"
  end.

Definition outcome_job_calls (sdk : WindowsSDK) (e : Env) (o : outcome)
    : list os_call :=
  match o with
  | ApiResolutionFailed => []
  | ContainerCreationFailed => [create_call sdk]
  | ProcessAttachFailed => [create_call sdk; assign_call e; close_call e]
  | LimitApplicationFailed =>
      [create_call sdk; assign_call e; set_call sdk e; close_call e]
  | Success => [create_call sdk; assign_call e; set_call sdk e]
  end.

(** The conditions under which each outcome is reached, for status codes
    that are [LONG] values. *)
Definition outcome_condition (e : Env) (w : World) (o : outcome) : Prop :=
  match o with
  | ApiResolutionFailed => ¬ all_resolved e w
  | ContainerCreationFailed =>
      all_resolved e w ∧ NtCreateJobObject_status e < 0
  | ProcessAttachFailed =>
      all_resolved e w ∧ 0 <= NtCreateJobObject_status e ∧
      NtAssignProcessToJobObject_status e < 0
  | LimitApplicationFailed =>
      all_resolved e w ∧ 0 <= NtCreateJobObject_status e ∧
      0 <= NtAssignProcessToJobObject_status e ∧
      NtSetInformationJobObject_status e < 0
  | Success =>
      all_resolved e w ∧ 0 <= NtCreateJobObject_status e ∧
      0 <= NtAssignProcessToJobObject_status e ∧
      0 <= NtSetInformationJobObject_status e
  end.

(** The two kinds of lookup call. *)
Definition is_GetModuleHandleA (c : os_call) : bool :=
  match c with
  | call_GetModuleHandleA _ => true
  | _ => false
  end.

Definition is_GetProcAddress (c : os_call) : bool :=
  match c with
  | call_GetProcAddress _ _ => true
  | _ => false
  end.

(** The call the initializer of the static of [get_nt_api<T>] makes when
    control passes it in state [w]: none once the static is initialized. *)
Definition init_calls (w : World) (T : nt_api_t) : list os_call :=
  match ntdll_static w T with
  | None => [call_GetModuleHandleA "ntdll.dll"]
  | Some _ => []
  end.

(** An operating system in which [GetModuleHandleA] finds no module, and
    [GetProcAddress] on the null module answers with an address in the
    executable itself. *)
Definition env_no_ntdll : Env := {|
  GetModuleHandleA := fun _ => nullptr;
  GetProcAddress := fun h name => if h =? nullptr then 0x400000 else nullptr;
  NtCreateJobObject_status := 0;
  NtCreateJobObject_handle := Some 0x7c;
  NtAssignProcessToJobObject_status := 0;
  NtSetInformationJobObject_status := 0;
  cin_get := 10
|}.

(** The levels that are enumerators of [log_level]. *)
Definition is_enumerator (level : logging.log_level) : Prop :=
  level = logging.info ∨ level = logging.warning ∨ level = logging.error.

(** * Properties *)

(** ** Strings and status codes *)

Lemma string_app_assoc (a b c : string) : (a +:+ b) +:+ c = a +:+ (b +:+ c).
Proof.
  induction a as [|x a IH]; [reflexivity|].
  change (String x ((a +:+ b) +:+ c) = String x (a +:+ (b +:+ c))).
  now rewrite IH.
Qed.

Lemma count_lines_app (a b : string) :
  count_lines (a +:+ b) = (count_lines a + count_lines b)%nat.
Proof.
  induction a as [|x a IH]; [reflexivity|].
  change (count_lines (String x (a +:+ b)) =
          (count_lines (String x a) + count_lines b)%nat).
  simpl. rewrite IH. lia.
Qed.

Lemma LONG_cast_id (z : Z) : is_LONG z → LONG_cast z = z.
Proof.
  unfold is_LONG, LONG_MIN, LONG_MAX, LONG_cast. intros H.
  rewrite Z.mod_small; lia.
Qed.

Lemma LONG_cast_range (z : Z) : is_LONG (LONG_cast z).
Proof.
  unfold is_LONG, LONG_MIN, LONG_MAX, LONG_cast.
  pose proof (Z.mod_pos_bound (z + 2 ^ 31) (2 ^ 32) ltac:(lia)). lia.
Qed.

Lemma NT_SUCCESS_true (s : Z) :
  is_LONG s → protection.NT_SUCCESS s = true ↔ 0 <= s.
Proof.
  intros H. unfold protection.NT_SUCCESS. rewrite (LONG_cast_id _ H).
  rewrite Z.geb_le. reflexivity.
Qed.

Lemma NT_SUCCESS_false (s : Z) :
  is_LONG s → protection.NT_SUCCESS s = false ↔ s < 0.
Proof.
  intros H. rewrite <- not_true_iff_false, (NT_SUCCESS_true _ H). lia.
Qed.

Lemma is_null_false (p : Z) : is_null p = false ↔ p ≠ nullptr.
Proof. unfold is_null. apply Z.eqb_neq. Qed.

(** Closes a branch of [enable] once the run has been evaluated: the final
    state is the witness, and the text and calls are reassociated. *)
Ltac enable_done Hc Hk :=
  eexists; split; [reflexivity|]; simpl; unfold log_line; simpl;
  rewrite Hc, Hk, ?string_app_assoc, <- ?app_assoc; auto.

(** ** The effect of [log] *)

Lemma log_run (level : logging.log_level) (message : string) (w : World) :
  logging.log level message w =
    (tt, {| cout := cout w +:+ log_line level message;
            calls := calls w; ntdll_static := ntdll_static w |}).
Proof.
  unfold logging.log, log_line, write, mbind, M_bind. simpl.
  now rewrite !string_app_assoc.
Qed.

(** ** The effect of [get_nt_api] *)

Lemma get_nt_api_run (e : Env) (T : nt_api_t) (name : string) (w : World) :
  ∃ w', protection.get_nt_api e T name w = (resolve e w T name, w') ∧
        cout w' = cout w ∧
        calls w' = calls w ++ resolve_calls e w T name ∧
        (∀ T', T' ≠ T → ntdll_static w' T' = ntdll_static w T') ∧
        (∀ T', ntdll_of e w' T' = ntdll_of e w T').
Proof.
  unfold protection.get_nt_api, static_ntdll, resolve, resolve_calls, ntdll_of,
    os_GetProcAddress, os_GetModuleHandleA, os, mbind, M_bind, mret, M_ret.
  destruct (ntdll_static w T) as [h|] eqn:Hs; simpl.
  - eexists; split; [reflexivity|]. simpl. auto.
  - eexists; split; [reflexivity|]. simpl.
    split; [reflexivity|]. split; [now rewrite <- app_assoc|].
    split; intros T'.
    + intros Hne. now destruct (decide (T' = T)).
    + destruct (decide (T' = T)) as [->|]; [now rewrite Hs|reflexivity].
Qed.

Lemma lookup_calls_no_job_call (e : Env) (w : World) :
  List.filter is_job_call (lookup_calls e w) = [].
Proof.
  unfold lookup_calls, resolve_calls.
  rewrite !List.filter_app.
  destruct (ntdll_static w NtCreateJobObject_t),
    (ntdll_static w NtAssignProcessToJobObject_t),
    (ntdll_static w NtSetInformationJobObject_t); reflexivity.
Qed.

(** ** The effect of [enable] *)

(** One run of [enable], completely: the value returned, the text written
    and the calls made are those of [outcome_of]. *)
Lemma enable_run (sdk : WindowsSDK) (e : Env) (w : World) :
  ∃ w', protection.enable sdk e w = (outcome_result (outcome_of e w), w') ∧
        cout w' = cout w +:+ outcome_line (outcome_of e w) ∧
        calls w' = calls w ++ lookup_calls e w
                     ++ outcome_job_calls sdk e (outcome_of e w) ∧
        (∀ T, ntdll_of e w' T = ntdll_of e w T).
Proof.
  unfold protection.enable.
  destruct (get_nt_api_run e NtCreateJobObject_t "NtCreateJobObject" w)
    as (w1 & E1 & Hc1 & Hk1 & Hs1 & Hn1).
  destruct (get_nt_api_run e NtAssignProcessToJobObject_t
              "NtAssignProcessToJobObject" w1)
    as (w2 & E2 & Hc2 & Hk2 & Hs2 & Hn2).
  destruct (get_nt_api_run e NtSetInformationJobObject_t
              "NtSetInformationJobObject" w2)
    as (w3 & E3 & Hc3 & Hk3 & Hs3 & Hn3).
  assert (Hk : calls w3 = calls w ++ lookup_calls e w).
  { rewrite Hk3, Hk2, Hk1. unfold lookup_calls, resolve_calls, ntdll_of.
    rewrite !Hs2, !Hs1 by discriminate.
    now rewrite <- !app_assoc. }
  assert (Hn : ∀ T, ntdll_of e w3 T = ntdll_of e w T).
  { intros T. now rewrite Hn3, Hn2, Hn1. }
  assert (Hc : cout w3 = cout w) by congruence.
  unfold resolve in E2, E3. rewrite Hn1 in E2. rewrite Hn2, Hn1 in E3.
  unfold mbind at 1, M_bind at 1. rewrite E1.
  unfold mbind at 1, M_bind at 1. rewrite E2.
  unfold mbind at 1, M_bind at 1. rewrite E3.
  unfold outcome_of, resolve_NtCreateJobObject,
    resolve_NtAssignProcessToJobObject, resolve_NtSetInformationJobObject,
    resolve.
  destruct (_ || _ || _).
  { unfold mbind, M_bind, mret, M_ret. rewrite log_run. simpl.
    eexists; split; [reflexivity|]. simpl.
    rewrite Hc, Hk, app_nil_r. auto. }
  unfold os_NtCreateJobObject, os_NtAssignProcessToJobObject,
    os_NtSetInformationJobObject, os_CloseHandle, os.
  unfold mbind, M_bind, mret, M_ret. simpl.
  destruct (protection.NT_SUCCESS (NtCreateJobObject_status e)); simpl;
    [|enable_done Hc Hk].
  destruct (protection.NT_SUCCESS (NtAssignProcessToJobObject_status e)); simpl;
    [|enable_done Hc Hk].
  destruct (protection.NT_SUCCESS (NtSetInformationJobObject_status e)); simpl;
    enable_done Hc Hk.
Qed.

Lemma enable_result (sdk : WindowsSDK) (e : Env) (w : World) :
  (protection.enable sdk e w).1 = outcome_result (outcome_of e w).
Proof. destruct (enable_run sdk e w) as (w' & -> & _). reflexivity. Qed.

Lemma enable_cout (sdk : WindowsSDK) (e : Env) (w : World) :
  cout (protection.enable sdk e w).2 = cout w +:+ outcome_line (outcome_of e w).
Proof. destruct (enable_run sdk e w) as (w' & -> & H & _). exact H. Qed.

Lemma enable_new_calls (sdk : WindowsSDK) (e : Env) (w : World) :
  new_calls w (protection.enable sdk e w).2 =
    lookup_calls e w ++ outcome_job_calls sdk e (outcome_of e w).
Proof.
  destruct (enable_run sdk e w) as (w' & -> & _ & H & _).
  unfold new_calls. simpl. rewrite H. apply drop_app_length.
Qed.

Lemma enable_job_calls (sdk : WindowsSDK) (e : Env) (w : World) :
  job_calls w (protection.enable sdk e w).2 =
    outcome_job_calls sdk e (outcome_of e w).
Proof.
  unfold job_calls. rewrite enable_new_calls, List.filter_app.
  rewrite lookup_calls_no_job_call. simpl.
  now destruct (outcome_of e w).
Qed.

(** ** Which outcome a run has *)

Lemma all_resolved_iff (e : Env) (w : World) :
  is_null (resolve_NtCreateJobObject e w)
  || is_null (resolve_NtAssignProcessToJobObject e w)
  || is_null (resolve_NtSetInformationJobObject e w) = false
  ↔ all_resolved e w.
Proof.
  unfold all_resolved. rewrite !orb_false_iff, !is_null_false. tauto.
Qed.

Lemma outcome_of_condition (e : Env) (w : World) :
  Env_ok e → outcome_condition e w (outcome_of e w).
Proof.
  intros (H1 & H2 & H3). unfold outcome_of.
  destruct (_ || _ || _) eqn:Hr.
  { simpl. rewrite <- all_resolved_iff. congruence. }
  apply all_resolved_iff in Hr.
  destruct (protection.NT_SUCCESS (NtCreateJobObject_status e)) eqn:E1; simpl.
  2:{ apply NT_SUCCESS_false in E1; auto. }
  apply NT_SUCCESS_true in E1; [|assumption].
  destruct (protection.NT_SUCCESS (NtAssignProcessToJobObject_status e)) eqn:E2;
    simpl.
  2:{ apply NT_SUCCESS_false in E2; auto. }
  apply NT_SUCCESS_true in E2; [|assumption].
  destruct (protection.NT_SUCCESS (NtSetInformationJobObject_status e)) eqn:E3;
    simpl.
  2:{ apply NT_SUCCESS_false in E3; auto. }
  apply NT_SUCCESS_true in E3; auto.
Qed.

Lemma outcome_condition_unique (e : Env) (w : World) (o o' : outcome) :
  outcome_condition e w o → outcome_condition e w o' → o = o'.
Proof. destruct o, o'; simpl; intros; try reflexivity; intuition lia. Qed.

Lemma outcome_of_iff (e : Env) (w : World) (o : outcome) :
  Env_ok e → outcome_of e w = o ↔ outcome_condition e w o.
Proof.
  intros Hok. split.
  - intros <-. now apply outcome_of_condition.
  - intros H. apply (outcome_condition_unique e w); [|exact H].
    now apply outcome_of_condition.
Qed.

Lemma outcome_of_unresolved (e : Env) (w : World) :
  ¬ all_resolved e w → outcome_of e w = ApiResolutionFailed.
Proof.
  intros H. unfold outcome_of.
  destruct (_ || _ || _) eqn:Hr; [reflexivity|].
  now apply all_resolved_iff in Hr.
Qed.

Lemma outcome_line_one (o : outcome) : count_lines (outcome_line o) = 1%nat.
Proof. destruct o; reflexivity. Qed.

Lemma lookup_calls_no_CloseHandle (e : Env) (w : World) :
  List.filter is_CloseHandle (lookup_calls e w) = [].
Proof.
  unfold lookup_calls, resolve_calls. rewrite !List.filter_app.
  destruct (ntdll_static w NtCreateJobObject_t),
    (ntdll_static w NtAssignProcessToJobObject_t),
    (ntdll_static w NtSetInformationJobObject_t); reflexivity.
Qed.

(** A run that returns [true] has made no [CloseHandle] call. *)
Lemma enable_true_no_CloseHandle (sdk : WindowsSDK) (e : Env) (w : World) :
  (protection.enable sdk e w).1 = true →
  List.filter is_CloseHandle (new_calls w (protection.enable sdk e w).2) = [].
Proof.
  rewrite enable_result, enable_new_calls, List.filter_app,
    lookup_calls_no_CloseHandle.
  now destruct (outcome_of e w).
Qed.

(** ** The claims about [enable] *)

(** C2. [enable] returns [true] if and only if all three lookups return a
    non-null pointer and the creation, attachment and limit-setting calls
    each return a non-negative status; in every other case it returns
    [false]. *)
Theorem enable_true_iff (sdk : WindowsSDK) (e : Env) (w : World) :
  Env_ok e →
  ((protection.enable sdk e w).1 = true ↔
     all_resolved e w ∧
     0 <= NtCreateJobObject_status e ∧
     0 <= NtAssignProcessToJobObject_status e ∧
     0 <= NtSetInformationJobObject_status e) ∧
  ((protection.enable sdk e w).1 = false ↔
     ¬ (all_resolved e w ∧
        0 <= NtCreateJobObject_status e ∧
        0 <= NtAssignProcessToJobObject_status e ∧
        0 <= NtSetInformationJobObject_status e)).
Proof.
  intros Hok. rewrite enable_result.
  assert (Hs : outcome_result (outcome_of e w) = true ↔
               outcome_condition e w Success).
  { rewrite <- (outcome_of_iff e w Success Hok).
    destruct (outcome_of e w); simpl; split; congruence. }
  split; [exact Hs|].
  rewrite <- not_true_iff_false, Hs. reflexivity.
Qed.

Lemma enable_true_iff_witness :
  (protection.enable sdk_x64 (env_sample [] 0 0 0) world0).1 = true ∧
  (protection.enable sdk_x64 (env_sample [] 0 (-1) 0) world0).1 = false.
Proof.
  split.
  - apply (enable_true_iff sdk_x64 (env_sample [] 0 0 0) world0).
    + unfold Env_ok, is_LONG, LONG_MIN, LONG_MAX; simpl; lia.
    + unfold all_resolved; simpl; repeat split; vm_compute; congruence.
  - apply (enable_true_iff sdk_x64 (env_sample [] 0 (-1) 0) world0).
    + unfold Env_ok, is_LONG, LONG_MIN, LONG_MAX; simpl; lia.
    + simpl; lia.
Defined.

(** C3. When at least one of the three lookups returns null, [enable]
    writes the error line "Failed to get NT API functions", returns
    [false], and has made no call besides the lookups: no job object is
    created, nothing is attached, set or closed. *)
Theorem enable_unresolved (sdk : WindowsSDK) (e : Env) (w : World) :
  resolve_NtCreateJobObject e w = nullptr ∨
  resolve_NtAssignProcessToJobObject e w = nullptr ∨
  resolve_NtSetInformationJobObject e w = nullptr →
  (protection.enable sdk e w).1 = false ∧
  cout (protection.enable sdk e w).2 =
    cout w +:+ "[ERROR] Failed to get NT API functions" +:+ endl ∧
  new_calls w (protection.enable sdk e w).2 = lookup_calls e w ∧
  job_calls w (protection.enable sdk e w).2 = [].
Proof.
  intros H.
  assert (Ho : outcome_of e w = ApiResolutionFailed).
  { apply outcome_of_unresolved. unfold all_resolved. tauto. }
  rewrite enable_result, enable_cout, enable_new_calls, enable_job_calls, Ho.
  simpl. now rewrite app_nil_r.
Qed.

Lemma enable_unresolved_witness :
  (protection.enable sdk_x64
     (env_sample ["NtCreateJobObject"] 0 0 0) world0).1 = false ∧
  job_calls world0
    (protection.enable sdk_x64
       (env_sample ["NtCreateJobObject"] 0 0 0) world0).2 = [].
Proof.
  destruct (enable_unresolved sdk_x64
              (env_sample ["NtCreateJobObject"] 0 0 0) world0)
    as (H1 & _ & _ & H2).
  - left. vm_compute. reflexivity.
  - exact (conj H1 H2).
Defined.

(** C4. When all lookups succeed and the job object is created, but the
    attachment call or the limit-setting call returns a negative status,
    [enable] returns [false] having closed the job handle exactly once:
    the calls of the run contain one [CloseHandle], on the job handle, and
    it is the last call made. When it is the attachment that fails, the
    text written is the one error line "Failed to assign process to job". *)
Theorem enable_failure_closes_once (sdk : WindowsSDK) (e : Env) (w : World) :
  Env_ok e →
  all_resolved e w →
  0 <= NtCreateJobObject_status e →
  NtAssignProcessToJobObject_status e < 0 ∨
  NtSetInformationJobObject_status e < 0 →
  (protection.enable sdk e w).1 = false ∧
  List.filter is_CloseHandle (new_calls w (protection.enable sdk e w).2) =
    [call_CloseHandle (job_handle e)] ∧
  last (new_calls w (protection.enable sdk e w).2) =
    Some (call_CloseHandle (job_handle e)) ∧
  (NtAssignProcessToJobObject_status e < 0 →
   cout (protection.enable sdk e w).2 =
     cout w +:+ "[ERROR] Failed to assign process to job" +:+ endl ∧
   job_calls w (protection.enable sdk e w).2 =
     [create_call sdk; assign_call e; call_CloseHandle (job_handle e)]).
Proof.
  intros Hok Hr Hc Hf.
  pose proof (outcome_of_condition e w Hok) as Ho.
  rewrite enable_result, enable_cout, enable_new_calls, enable_job_calls.
  rewrite List.filter_app, lookup_calls_no_CloseHandle, last_app.
  destruct (outcome_of e w); simpl in Ho; simpl;
    [tauto | lia | | | lia].
  - repeat split; reflexivity.
  - repeat split; try reflexivity; lia.
Qed.

Lemma enable_failure_closes_once_witness :
  List.filter is_CloseHandle
    (new_calls world0
       (protection.enable sdk_x64 (env_sample [] 0 (-1073741790) 0) world0).2) =
    [call_CloseHandle 0x7c] ∧
  List.filter is_CloseHandle
    (new_calls world0
       (protection.enable sdk_x64 (env_sample [] 0 0 (-1073741811)) world0).2) =
    [call_CloseHandle 0x7c].
Proof.
  split.
  - apply (enable_failure_closes_once sdk_x64
             (env_sample [] 0 (-1073741790) 0) world0).
    + unfold Env_ok, is_LONG, LONG_MIN, LONG_MAX; simpl; lia.
    + unfold all_resolved; repeat split; vm_compute; congruence.
    + simpl; lia.
    + left; simpl; lia.
  - apply (enable_failure_closes_once sdk_x64
             (env_sample [] 0 0 (-1073741811)) world0).
    + unfold Env_ok, is_LONG, LONG_MIN, LONG_MAX; simpl; lia.
    + unfold all_resolved; repeat split; vm_compute; congruence.
    + simpl; lia.
    + right; simpl; lia.
Defined.

(** C5. On a run of [enable] that returns [true], exactly one record is
    written into the job object. Its [ProcessMemoryLimit] is 4096 (0x1000),
    its [BasicLimitInformation.LimitFlags] is [JOB_OBJECT_LIMIT_PROCESS_MEMORY]
    and nothing else, every other field is zero, and it is written to the
    job handle with the class [JobObjectExtendedLimitInformation] and the
    size of the record type. *)
Theorem enable_success_limits (sdk : WindowsSDK) (e : Env) (w : World) :
  (protection.enable sdk e w).1 = true →
  ∃ limits : gmap string Z,
    List.filter is_NtSetInformationJobObject
      (new_calls w (protection.enable sdk e w).2) =
      [call_NtSetInformationJobObject (job_handle e)
         (JobObjectExtendedLimitInformation sdk) limits
         (sizeof_JOBOBJECT_EXTENDED_LIMIT_INFORMATION sdk)] ∧
    field limits "ProcessMemoryLimit" = 4096 ∧
    field limits "BasicLimitInformation.LimitFlags" =
      JOB_OBJECT_LIMIT_PROCESS_MEMORY sdk ∧
    (∀ f : string,
       f ≠ "ProcessMemoryLimit" → f ≠ "BasicLimitInformation.LimitFlags" →
       field limits f = 0).
Proof.
  rewrite enable_result, enable_new_calls. intros Hr.
  assert (Hl : List.filter is_NtSetInformationJobObject (lookup_calls e w) = []).
  { unfold lookup_calls, resolve_calls. rewrite !List.filter_app.
    destruct (ntdll_static w NtCreateJobObject_t),
      (ntdll_static w NtAssignProcessToJobObject_t),
      (ntdll_static w NtSetInformationJobObject_t); reflexivity. }
  exists (enable_limits sdk).
  rewrite List.filter_app, Hl.
  destruct (outcome_of e w); try discriminate Hr.
  split; [reflexivity|].
  unfold field, enable_limits.
  split; [|split].
  - rewrite lookup_insert_ne by discriminate.
    now rewrite lookup_insert_eq.
  - now rewrite lookup_insert_eq.
  - intros f H1 H2.
    rewrite lookup_insert_ne by congruence.
    rewrite lookup_insert_ne by congruence.
    now rewrite lookup_empty.
Qed.

Lemma enable_success_limits_witness :
  ∃ limits : gmap string Z,
    List.filter is_NtSetInformationJobObject
      (new_calls world0
         (protection.enable sdk_x64 (env_sample [] 0 0 0) world0).2) =
      [call_NtSetInformationJobObject 0x7c 9 limits 144] ∧
    field limits "ProcessMemoryLimit" = 4096 ∧
    field limits "BasicLimitInformation.LimitFlags" = 0x100 ∧
    (∀ f : string,
       f ≠ "ProcessMemoryLimit" → f ≠ "BasicLimitInformation.LimitFlags" →
       field limits f = 0).
Proof.
  apply (enable_success_limits sdk_x64 (env_sample [] 0 0 0) world0).
  vm_compute. reflexivity.
Defined.

(** C6. Each of the three calls [enable] makes through a resolved pointer
    counts as successful exactly when its status is non-negative, and as
    failed exactly when it is negative: [enable] goes on to the attachment
    if and only if the creation status is non-negative, goes on to write
    the limits if and only if moreover the attachment status is
    non-negative, and returns [true] if and only if moreover the
    limit-setting status is non-negative. Nothing but the sign of a status
    is looked at. *)
Theorem enable_status_sign (sdk : WindowsSDK) (e : Env) (w : World) :
  Env_ok e →
  all_resolved e w →
  (protection.NT_SUCCESS (NtCreateJobObject_status e) = true ↔
     0 <= NtCreateJobObject_status e) ∧
  (protection.NT_SUCCESS (NtAssignProcessToJobObject_status e) = true ↔
     0 <= NtAssignProcessToJobObject_status e) ∧
  (protection.NT_SUCCESS (NtSetInformationJobObject_status e) = true ↔
     0 <= NtSetInformationJobObject_status e) ∧
  (protection.NT_SUCCESS (NtCreateJobObject_status e) = false ↔
     NtCreateJobObject_status e < 0) ∧
  (protection.NT_SUCCESS (NtAssignProcessToJobObject_status e) = false ↔
     NtAssignProcessToJobObject_status e < 0) ∧
  (protection.NT_SUCCESS (NtSetInformationJobObject_status e) = false ↔
     NtSetInformationJobObject_status e < 0) ∧
  (assign_call e ∈ job_calls w (protection.enable sdk e w).2 ↔
     0 <= NtCreateJobObject_status e) ∧
  (set_call sdk e ∈ job_calls w (protection.enable sdk e w).2 ↔
     0 <= NtCreateJobObject_status e ∧
     0 <= NtAssignProcessToJobObject_status e) ∧
  ((protection.enable sdk e w).1 = true ↔
     0 <= NtCreateJobObject_status e ∧
     0 <= NtAssignProcessToJobObject_status e ∧
     0 <= NtSetInformationJobObject_status e).
Proof.
  intros Hok Hr.
  pose proof (outcome_of_condition e w Hok) as Ho.
  destruct Hok as (H1 & H2 & H3).
  rewrite !NT_SUCCESS_true, !NT_SUCCESS_false by assumption.
  rewrite enable_result, enable_job_calls.
  do 6 (split; [reflexivity|]).
  unfold assign_call, set_call, create_call, close_call.
  destruct (outcome_of e w); simpl in Ho; simpl;
    rewrite ?elem_of_cons, ?elem_of_nil;
    repeat split; intros; try lia; try tauto; try discriminate;
    intuition (try discriminate; try lia).
Qed.

Lemma enable_status_sign_witness :
  protection.NT_SUCCESS 1073741824 = true ∧
  (protection.enable sdk_x64 (env_sample [] 1073741824 0 1) world0).1 = true.
Proof.
  destruct (enable_status_sign sdk_x64 (env_sample [] 1073741824 0 1) world0)
    as (H1 & _ & _ & _ & _ & _ & _ & _ & H6).
  - unfold Env_ok, is_LONG, LONG_MIN, LONG_MAX; simpl; lia.
  - unfold all_resolved; repeat split; vm_compute; congruence.
  - split.
    + apply H1. simpl; lia.
    + apply H6. simpl; lia.
Defined.

(** C7. Every run of [enable] writes exactly one line. A run that returns
    [false] writes one [ERROR] line whose message names the step that
    failed: "Failed to get NT API functions" when a lookup returned null,
    "Failed to create job object", "Failed to assign process to job" or
    "Failed to set job limits" when that call was the first to return a
    negative status. A run that returns [true] writes the one [INFO] line
    "Memory protection active". *)
Theorem enable_one_log_line (sdk : WindowsSDK) (e : Env) (w : World) :
  Env_ok e →
  ∃ (level : logging.log_level) (message : string),
    cout (protection.enable sdk e w).2 =
      cout w +:+ logging.prefix level +:+ message +:+ endl ∧
    count_lines (logging.prefix level +:+ message +:+ endl) = 1%nat ∧
    ((protection.enable sdk e w).1 = false ∧ level = logging.error ∧
     (¬ all_resolved e w ∧ message = "Failed to get NT API functions" ∨
      all_resolved e w ∧ NtCreateJobObject_status e < 0 ∧
        message = "Failed to create job object" ∨
      all_resolved e w ∧ 0 <= NtCreateJobObject_status e ∧
        NtAssignProcessToJobObject_status e < 0 ∧
        message = "Failed to assign process to job" ∨
      all_resolved e w ∧ 0 <= NtCreateJobObject_status e ∧
        0 <= NtAssignProcessToJobObject_status e ∧
        NtSetInformationJobObject_status e < 0 ∧
        message = "Failed to set job limits")
     ∨
     (protection.enable sdk e w).1 = true ∧ level = logging.info ∧
     message = "Memory protection active" ∧
     all_resolved e w ∧ 0 <= NtCreateJobObject_status e ∧
     0 <= NtAssignProcessToJobObject_status e ∧
     0 <= NtSetInformationJobObject_status e).
Proof.
  intros Hok.
  pose proof (outcome_of_condition e w Hok) as Ho.
  rewrite enable_result, enable_cout.
  destruct (outcome_of e w); simpl in Ho.
  - exists logging.error, "Failed to get NT API functions".
    split; [reflexivity|]. split; [reflexivity|]. left. tauto.
  - exists logging.error, "Failed to create job object".
    split; [reflexivity|]. split; [reflexivity|]. left. tauto.
  - exists logging.error, "Failed to assign process to job".
    split; [reflexivity|]. split; [reflexivity|]. left. tauto.
  - exists logging.error, "Failed to set job limits".
    split; [reflexivity|]. split; [reflexivity|]. left. tauto.
  - exists logging.info, "Memory protection active".
    split; [reflexivity|]. split; [reflexivity|]. right. tauto.
Qed.

Lemma enable_one_log_line_witness :
  ∃ (level : logging.log_level) (message : string),
    cout (protection.enable sdk_x64 (env_sample [] 0 0 (-1)) world0).2 =
      cout world0 +:+ logging.prefix level +:+ message +:+ endl ∧
    count_lines (logging.prefix level +:+ message +:+ endl) = 1%nat.
Proof.
  destruct (enable_one_log_line sdk_x64 (env_sample [] 0 0 (-1)) world0)
    as (level & message & H1 & H2 & _).
  - unfold Env_ok, is_LONG, LONG_MIN, LONG_MAX; simpl; lia.
  - exists level, message. exact (conj H1 H2).
Defined.

(** C9. The result and the text written by [enable] are determined by
    which lookups return null and by the three status codes: two runs, in
    any two environments and starting states, that agree on these return
    the same boolean and write the same text. *)
Theorem enable_deterministic
    (sdk : WindowsSDK) (e1 e2 : Env) (w1 w2 : World) :
  (resolve_NtCreateJobObject e1 w1 = nullptr ↔
   resolve_NtCreateJobObject e2 w2 = nullptr) →
  (resolve_NtAssignProcessToJobObject e1 w1 = nullptr ↔
   resolve_NtAssignProcessToJobObject e2 w2 = nullptr) →
  (resolve_NtSetInformationJobObject e1 w1 = nullptr ↔
   resolve_NtSetInformationJobObject e2 w2 = nullptr) →
  NtCreateJobObject_status e1 = NtCreateJobObject_status e2 →
  NtAssignProcessToJobObject_status e1 = NtAssignProcessToJobObject_status e2 →
  NtSetInformationJobObject_status e1 = NtSetInformationJobObject_status e2 →
  (protection.enable sdk e1 w1).1 = (protection.enable sdk e2 w2).1 ∧
  ∃ text : string,
    cout (protection.enable sdk e1 w1).2 = cout w1 +:+ text ∧
    cout (protection.enable sdk e2 w2).2 = cout w2 +:+ text.
Proof.
  intros Ha Hb Hc Hs1 Hs2 Hs3.
  assert (Hn : ∀ p q : Z, (p = nullptr ↔ q = nullptr) → is_null p = is_null q).
  { intros p q H. unfold is_null.
    destruct (Z.eqb_spec p nullptr), (Z.eqb_spec q nullptr); tauto. }
  assert (Ho : outcome_of e1 w1 = outcome_of e2 w2).
  { unfold outcome_of.
    now rewrite (Hn _ _ Ha), (Hn _ _ Hb), (Hn _ _ Hc), Hs1, Hs2, Hs3. }
  rewrite !enable_result, !enable_cout, Ho.
  split; [reflexivity|]. eexists; split; reflexivity.
Qed.

Lemma enable_deterministic_witness :
  (protection.enable sdk_x64 (env_sample [] 0 (-5) 0) world0).1 =
  (protection.enable sdk_x64 (env_other 0 (-5) 0) world_warm).1 ∧
  ∃ text : string,
    cout (protection.enable sdk_x64 (env_sample [] 0 (-5) 0) world0).2 =
      cout world0 +:+ text ∧
    cout (protection.enable sdk_x64 (env_other 0 (-5) 0) world_warm).2 =
      cout world_warm +:+ text.
Proof.
  apply (enable_deterministic sdk_x64
           (env_sample [] 0 (-5) 0) (env_other 0 (-5) 0) world0 world_warm);
    try reflexivity; vm_compute; split; discriminate.
Defined.

(** ** The claims about [log] and the entry point *)

(** The prefix never contains a line terminator. *)
Lemma prefix_no_newline (level : logging.log_level) :
  count_lines (logging.prefix level) = 0%nat.
Proof.
  unfold logging.prefix.
  destruct (level =? logging.info); [reflexivity|].
  destruct (level =? logging.warning); [reflexivity|].
  destruct (level =? logging.error); reflexivity.
Qed.

(** C8, as amended. Every call of [log], whatever its level and message,
    appends to the console the prefix of its level, the formatted message
    and a newline, and nothing else; the prefix is "[INFO] " for [info],
    "[WARN] " for [warning] and "[ERROR] " for [error] (and empty for a
    value that is none of the three). When the formatted message contains
    no newline character this is exactly one line; in general it is one
    line more than the message has newline characters. *)
Theorem log_appends_line
    (level : logging.log_level) (message : string) (w : World) :
  ∃ pre line : string,
    (level = logging.info → pre = "[INFO] ") ∧
    (level = logging.warning → pre = "[WARN] ") ∧
    (level = logging.error → pre = "[ERROR] ") ∧
    (level ≠ logging.info → level ≠ logging.warning →
     level ≠ logging.error → pre = "") ∧
    line = pre +:+ message +:+ endl ∧
    cout (logging.log level message w).2 = cout w +:+ line ∧
    count_lines line = S (count_lines message) ∧
    (count_lines message = 0%nat → count_lines line = 1%nat) ∧
    calls (logging.log level message w).2 = calls w.
Proof.
  exists (logging.prefix level), (log_line level message).
  assert (Hn : count_lines (log_line level message) = S (count_lines message)).
  { unfold log_line. rewrite !count_lines_app, prefix_no_newline.
    simpl. lia. }
  split; [now intros ->|]. split; [now intros ->|]. split; [now intros ->|].
  split.
  { intros H0 H1 H2. unfold logging.prefix.
    apply Z.eqb_neq in H0, H1, H2. now rewrite H0, H1, H2. }
  split; [reflexivity|].
  rewrite log_run. simpl.
  split; [reflexivity|]. split; [exact Hn|].
  split; [|reflexivity].
  intros Hm. now rewrite Hn, Hm.
Qed.

Lemma log_appends_line_witness :
  ∃ line : string,
    line = "[WARN] " +:+ "low memory" +:+ endl ∧
    cout (logging.log logging.warning "low memory" world0).2 =
      cout world0 +:+ line ∧
    count_lines line = 1%nat ∧
    calls (logging.log logging.warning "low memory" world0).2 = calls world0.
Proof.
  destruct (log_appends_line logging.warning "low memory" world0)
    as (pre & line & _ & Hw & _ & _ & Hl & Hc & _ & H1 & Hk).
  exists line. rewrite (Hw eq_refl) in Hl.
  split; [exact Hl|]. split; [exact Hc|]. split; [|exact Hk].
  apply H1. reflexivity.
Defined.

(** C8, as stated, fails: a message that contains a newline makes one call
    of [log] emit two lines. *)
Lemma log_message_with_newline_two_lines :
  cout (logging.log logging.info ("a" +:+ endl +:+ "b") world0).2 =
    "[INFO] a" +:+ endl +:+ "b" +:+ endl ∧
  count_lines (cout (logging.log logging.info ("a" +:+ endl +:+ "b") world0).2)
    = 2%nat ∧
  ¬ (∀ (level : logging.log_level) (message : string) (w : World),
       count_lines (cout (logging.log level message w).2) =
         S (count_lines (cout w))).
Proof.
  split; [reflexivity|]. split; [reflexivity|].
  intros H.
  specialize (H logging.info ("a" +:+ endl +:+ "b") world0).
  vm_compute in H. discriminate H.
Qed.

(** The number of lines a call of [log] emits, in general. *)
Lemma log_line_count (level : logging.log_level) (message : string) :
  count_lines (log_line level message) = S (count_lines message).
Proof.
  unfold log_line. rewrite !count_lines_app, prefix_no_newline. simpl. lia.
Qed.

(** C10. After [enable] has returned, [enable_protection] writes a second
    line: the [INFO] line "Protection active!" when [enable] returned
    [true], the [ERROR] line "Failed to set protection!" when it returned
    [false]. A run of [main] therefore writes the line of [enable], this
    second line and then the prompt "Press ENTER to close program.", and
    returns what [std::cin.get()] returns. *)
Theorem main_two_outcome_lines (sdk : WindowsSDK) (e : Env) (w : World) :
  ∃ first second : string,
    cout (protection.enable sdk e w).2 = cout w +:+ first ∧
    count_lines first = 1%nat ∧
    second =
      (if (protection.enable sdk e w).1
       then "[INFO] Protection active!" +:+ endl
       else "[ERROR] Failed to set protection!" +:+ endl) ∧
    cout (enable_protection sdk e w).2 = cout w +:+ first +:+ second ∧
    count_lines (first +:+ second) = 2%nat ∧
    cout (main sdk e w).2 =
      cout w +:+ first +:+ second +:+
        "[INFO] Press ENTER to close program." +:+ endl ∧
    (main sdk e w).1 = cin_get e.
Proof.
  exists (outcome_line (outcome_of e w)).
  eexists. split; [apply enable_cout|].
  split; [apply outcome_line_one|]. split; [reflexivity|].
  pose proof (enable_cout sdk e w) as Hc.
  unfold main, enable_protection.
  unfold mbind, M_bind, mret, M_ret.
  destruct (protection.enable sdk e w) as [r w'] eqn:E. simpl in *.
  destruct r; rewrite !log_run; simpl; rewrite Hc, !string_app_assoc;
    (split; [reflexivity|]);
    (split; [|split; reflexivity]);
    rewrite count_lines_app, outcome_line_one; reflexivity.
Qed.

(** C1, at the run in which every step succeeds: [enable] returns [true]
    and no [CloseHandle] is among the calls it made, so the job handle
    [0x7c] it created is still open when it returns. *)
Theorem enable_success_leaves_handle_open :
  (protection.enable sdk_x64 (env_sample [] 0 0 0) world0).1 = true ∧
  job_calls world0 (protection.enable sdk_x64 (env_sample [] 0 0 0) world0).2 =
    [call_NtCreateJobObject 0x02000000 0;
     call_NtAssignProcessToJobObject 0x7c (-1);
     call_NtSetInformationJobObject 0x7c 9 (enable_limits sdk_x64) 144] ∧
  List.filter is_CloseHandle
    (new_calls world0
       (protection.enable sdk_x64 (env_sample [] 0 0 0) world0).2) = [].
Proof.
  assert (Hr : (protection.enable sdk_x64 (env_sample [] 0 0 0) world0).1 = true)
    by (vm_compute; reflexivity).
  split; [exact Hr|]. split; [|now apply enable_true_no_CloseHandle].
  rewrite enable_job_calls.
  assert (Ho : outcome_of (env_sample [] 0 0 0) world0 = Success)
    by (vm_compute; reflexivity).
  now rewrite Ho.
Qed.

(** * Further properties of the code *)

(** ** [get_nt_api] *)

Lemma get_nt_api_static (e : Env) (T T' : nt_api_t) (name : string) (w : World) :
  ntdll_static (protection.get_nt_api e T name w).2 T' =
    if decide (T' = T) then Some (ntdll_of e w T) else ntdll_static w T'.
Proof.
  unfold protection.get_nt_api, static_ntdll, ntdll_of,
    os_GetProcAddress, os_GetModuleHandleA, os, mbind, M_bind, mret, M_ret.
  destruct (ntdll_static w T) as [h|] eqn:Hs; simpl.
  - destruct (decide (T' = T)) as [->|]; [exact Hs|reflexivity].
  - reflexivity.
Qed.

Lemma get_nt_api_new_calls (e : Env) (T : nt_api_t) (name : string) (w : World) :
  new_calls w (protection.get_nt_api e T name w).2 = resolve_calls e w T name.
Proof.
  destruct (get_nt_api_run e T name w) as (w' & -> & _ & H & _).
  unfold new_calls. simpl. rewrite H. apply drop_app_length.
Qed.

Lemma get_nt_api_result (e : Env) (T : nt_api_t) (name : string) (w : World) :
  (protection.get_nt_api e T name w).1 = resolve e w T name.
Proof. destruct (get_nt_api_run e T name w) as (w' & -> & _). reflexivity. Qed.

(** X1. The module handle is looked up once per instantiation and then
    reused: after any call of [get_nt_api<T>], a further call of the same
    instantiation makes exactly one operating-system call, [GetProcAddress]
    on the handle the first call used, and returns its answer, whatever
    [GetModuleHandleA] would answer by then. *)
Theorem get_nt_api_reuses_module
    (e e' : Env) (T : nt_api_t) (name name' : string) (w : World) :
  new_calls (protection.get_nt_api e T name w).2
    (protection.get_nt_api e' T name' (protection.get_nt_api e T name w).2).2 =
    [call_GetProcAddress (ntdll_of e w T) name'] ∧
  (protection.get_nt_api e' T name' (protection.get_nt_api e T name w).2).1 =
    GetProcAddress e' (ntdll_of e w T) name'.
Proof.
  rewrite get_nt_api_new_calls, get_nt_api_result.
  unfold resolve_calls, resolve, ntdll_of.
  rewrite get_nt_api_static.
  destruct (decide (T = T)); [|congruence]. split; reflexivity.
Qed.

(** X2. [get_nt_api] does not check the module handle. When the static is
    not yet initialized and [GetModuleHandleA("ntdll.dll")] returns null,
    [GetProcAddress] is still called, on the null module, and its answer is
    returned; the null handle is stored in the static, so the module is
    not looked up again by this instantiation. *)
Theorem get_nt_api_null_module
    (e : Env) (T : nt_api_t) (name : string) (w : World) :
  ntdll_static w T = None →
  GetModuleHandleA e "ntdll.dll" = nullptr →
  (protection.get_nt_api e T name w).1 = GetProcAddress e nullptr name ∧
  new_calls w (protection.get_nt_api e T name w).2 =
    [call_GetModuleHandleA "ntdll.dll"; call_GetProcAddress nullptr name] ∧
  ntdll_static (protection.get_nt_api e T name w).2 T = Some nullptr.
Proof.
  intros Hs Hm.
  rewrite get_nt_api_result, get_nt_api_new_calls, get_nt_api_static.
  unfold resolve, resolve_calls, ntdll_of. rewrite Hs. simpl. rewrite Hm.
  destruct (decide (T = T)); [|congruence]. repeat split; reflexivity.
Qed.

Lemma get_nt_api_null_module_witness :
  (protection.get_nt_api env_no_ntdll NtCreateJobObject_t
     "NtCreateJobObject" world0).1 = 0x400000 ∧
  ntdll_static
    (protection.get_nt_api env_no_ntdll NtCreateJobObject_t
       "NtCreateJobObject" world0).2 NtCreateJobObject_t = Some nullptr.
Proof.
  destruct (get_nt_api_null_module env_no_ntdll NtCreateJobObject_t
              "NtCreateJobObject" world0) as (H1 & _ & H3).
  - reflexivity.
  - reflexivity.
  - exact (conj H1 H3).
Defined.

Lemma get_nt_api_ntdll_of
    (e : Env) (T T' : nt_api_t) (name : string) (w : World) :
  ntdll_of e (protection.get_nt_api e T name w).2 T' = ntdll_of e w T'.
Proof.
  destruct (get_nt_api_run e T name w) as (w' & -> & _ & _ & _ & H). apply H.
Qed.

(** ** The lookups of [enable] *)

(** After a run of [enable] the static of every instantiation holds the
    module handle that instantiation used during the run. *)
Lemma enable_statics (sdk : WindowsSDK) (e : Env) (w : World) (T : nt_api_t) :
  ntdll_static (protection.enable sdk e w).2 T = Some (ntdll_of e w T).
Proof.
  unfold protection.enable.
  pose proof (get_nt_api_static e NtCreateJobObject_t T
                "NtCreateJobObject" w) as H1.
  pose proof (get_nt_api_ntdll_of e NtCreateJobObject_t) as N1.
  specialize (N1 T "NtCreateJobObject" w) as N1T.
  specialize (N1 NtAssignProcessToJobObject_t "NtCreateJobObject" w) as N1a.
  specialize (N1 NtSetInformationJobObject_t "NtCreateJobObject" w) as N1s.
  clear N1.
  destruct (protection.get_nt_api e NtCreateJobObject_t "NtCreateJobObject" w)
    as [p1 w1] eqn:E1.
  pose proof (get_nt_api_static e NtAssignProcessToJobObject_t T
                "NtAssignProcessToJobObject" w1) as H2.
  pose proof (get_nt_api_ntdll_of e NtAssignProcessToJobObject_t
                NtSetInformationJobObject_t
                "NtAssignProcessToJobObject" w1) as N2s.
  destruct (protection.get_nt_api e NtAssignProcessToJobObject_t
              "NtAssignProcessToJobObject" w1) as [p2 w2] eqn:E2.
  pose proof (get_nt_api_static e NtSetInformationJobObject_t T
                "NtSetInformationJobObject" w2) as H3.
  destruct (protection.get_nt_api e NtSetInformationJobObject_t
              "NtSetInformationJobObject" w2) as [p3 w3] eqn:E3.
  simpl in *.
  assert (Hs : ntdll_static w3 T = Some (ntdll_of e w T)).
  { rewrite H3, H2, H1. rewrite N2s, N1s, N1a.
    destruct T; reflexivity. }
  unfold mbind at 1, M_bind at 1. rewrite E1.
  unfold mbind at 1, M_bind at 1. rewrite E2.
  unfold mbind at 1, M_bind at 1. rewrite E3.
  unfold os_NtCreateJobObject, os_NtAssignProcessToJobObject,
    os_NtSetInformationJobObject, os_CloseHandle, os.
  unfold mbind, M_bind, mret, M_ret.
  destruct (_ || _ || _); simpl; [exact Hs|].
  destruct (protection.NT_SUCCESS (NtCreateJobObject_status e)); simpl;
    [|exact Hs].
  destruct (protection.NT_SUCCESS (NtAssignProcessToJobObject_status e)); simpl;
    [|exact Hs].
  destruct (protection.NT_SUCCESS (NtSetInformationJobObject_status e)); simpl;
    exact Hs.
Qed.

Lemma outcome_job_calls_no_lookup (sdk : WindowsSDK) (e : Env) (o : outcome) :
  List.filter is_GetProcAddress (outcome_job_calls sdk e o) = [] ∧
  List.filter is_GetModuleHandleA (outcome_job_calls sdk e o) = [].
Proof. destruct o; split; reflexivity. Qed.

Lemma enable_GetProcAddress_calls (sdk : WindowsSDK) (e : Env) (w : World) :
  List.filter is_GetProcAddress (new_calls w (protection.enable sdk e w).2) =
    [call_GetProcAddress (ntdll_of e w NtCreateJobObject_t)
       "NtCreateJobObject";
     call_GetProcAddress (ntdll_of e w NtAssignProcessToJobObject_t)
       "NtAssignProcessToJobObject";
     call_GetProcAddress (ntdll_of e w NtSetInformationJobObject_t)
       "NtSetInformationJobObject"].
Proof.
  rewrite enable_new_calls, !List.filter_app.
  destruct (outcome_job_calls_no_lookup sdk e (outcome_of e w)) as [-> _].
  rewrite !app_nil_r.
  unfold lookup_calls, resolve_calls. rewrite !List.filter_app.
  destruct (ntdll_static w NtCreateJobObject_t),
    (ntdll_static w NtAssignProcessToJobObject_t),
    (ntdll_static w NtSetInformationJobObject_t); reflexivity.
Qed.

Lemma enable_GetModuleHandleA_calls (sdk : WindowsSDK) (e : Env) (w : World) :
  List.filter is_GetModuleHandleA (new_calls w (protection.enable sdk e w).2) =
    init_calls w NtCreateJobObject_t ++
    init_calls w NtAssignProcessToJobObject_t ++
    init_calls w NtSetInformationJobObject_t.
Proof.
  rewrite enable_new_calls, !List.filter_app.
  destruct (outcome_job_calls_no_lookup sdk e (outcome_of e w)) as [_ ->].
  rewrite !app_nil_r.
  unfold lookup_calls, resolve_calls, init_calls. rewrite !List.filter_app.
  destruct (ntdll_static w NtCreateJobObject_t),
    (ntdll_static w NtAssignProcessToJobObject_t),
    (ntdll_static w NtSetInformationJobObject_t); reflexivity.
Qed.

(** X3. Every run of [enable] performs all three symbol lookups, in the
    order [NtCreateJobObject], [NtAssignProcessToJobObject],
    [NtSetInformationJobObject], before it looks at any of the results: a
    null result of an earlier lookup does not stop the later ones. The only
    other lookup calls are the initializers of statics not yet
    initialized. *)
Theorem enable_always_three_lookups (sdk : WindowsSDK) (e : Env) (w : World) :
  List.filter is_GetProcAddress (new_calls w (protection.enable sdk e w).2) =
    [call_GetProcAddress (ntdll_of e w NtCreateJobObject_t)
       "NtCreateJobObject";
     call_GetProcAddress (ntdll_of e w NtAssignProcessToJobObject_t)
       "NtAssignProcessToJobObject";
     call_GetProcAddress (ntdll_of e w NtSetInformationJobObject_t)
       "NtSetInformationJobObject"] ∧
  List.filter is_GetModuleHandleA (new_calls w (protection.enable sdk e w).2) =
    init_calls w NtCreateJobObject_t ++
    init_calls w NtAssignProcessToJobObject_t ++
    init_calls w NtSetInformationJobObject_t.
Proof.
  split.
  - apply enable_GetProcAddress_calls.
  - apply enable_GetModuleHandleA_calls.
Qed.

(** X4. The module handles are resolved once for the life of the process:
    a run of [enable] that follows an earlier run makes no
    [GetModuleHandleA] call, and its three [GetProcAddress] calls go to the
    module handles the earlier run used, whatever the operating system
    would answer by then. *)
Theorem enable_second_run_lookups
    (sdk : WindowsSDK) (e e' : Env) (w : World) :
  List.filter is_GetModuleHandleA
    (new_calls (protection.enable sdk e w).2
       (protection.enable sdk e' (protection.enable sdk e w).2).2) = [] ∧
  List.filter is_GetProcAddress
    (new_calls (protection.enable sdk e w).2
       (protection.enable sdk e' (protection.enable sdk e w).2).2) =
    [call_GetProcAddress (ntdll_of e w NtCreateJobObject_t)
       "NtCreateJobObject";
     call_GetProcAddress (ntdll_of e w NtAssignProcessToJobObject_t)
       "NtAssignProcessToJobObject";
     call_GetProcAddress (ntdll_of e w NtSetInformationJobObject_t)
       "NtSetInformationJobObject"].
Proof.
  rewrite enable_GetModuleHandleA_calls, enable_GetProcAddress_calls.
  unfold init_calls, ntdll_of. rewrite !enable_statics.
  split; reflexivity.
Qed.

(** X5. In a process in which no static of [get_nt_api] is initialized, a
    run of [enable] calls [GetModuleHandleA("ntdll.dll")] three times, once
    for each instantiation of the template, and afterwards all three
    statics hold the handle it returned. *)
Theorem enable_first_run_module_lookups
    (sdk : WindowsSDK) (e : Env) (w : World) :
  (∀ T : nt_api_t, ntdll_static w T = None) →
  List.filter is_GetModuleHandleA (new_calls w (protection.enable sdk e w).2) =
    [call_GetModuleHandleA "ntdll.dll"; call_GetModuleHandleA "ntdll.dll";
     call_GetModuleHandleA "ntdll.dll"] ∧
  (∀ T : nt_api_t,
     ntdll_static (protection.enable sdk e w).2 T =
       Some (GetModuleHandleA e "ntdll.dll")).
Proof.
  intros Hs.
  rewrite enable_GetModuleHandleA_calls.
  unfold init_calls. rewrite !Hs. split; [reflexivity|].
  intros T. rewrite enable_statics. unfold ntdll_of. now rewrite Hs.
Qed.

Lemma enable_first_run_module_lookups_witness :
  List.filter is_GetModuleHandleA
    (new_calls world0
       (protection.enable sdk_x64 (env_sample [] 0 0 0) world0).2) =
    [call_GetModuleHandleA "ntdll.dll"; call_GetModuleHandleA "ntdll.dll";
     call_GetModuleHandleA "ntdll.dll"].
Proof.
  apply (enable_first_run_module_lookups sdk_x64 (env_sample [] 0 0 0) world0).
  intros T. reflexivity.
Defined.

(** ** The job-object calls of [enable] *)

(** X6. When the lookups succeed but the creation call returns a negative
    status, [enable] returns [false] after that one call: nothing is
    attached, no limit is written and, as there is no handle, nothing is
    closed; the text written is the line "Failed to create job object". *)
Theorem enable_create_failure (sdk : WindowsSDK) (e : Env) (w : World) :
  Env_ok e →
  all_resolved e w →
  NtCreateJobObject_status e < 0 →
  (protection.enable sdk e w).1 = false ∧
  job_calls w (protection.enable sdk e w).2 =
    [call_NtCreateJobObject (MAXIMUM_ALLOWED sdk) nullptr] ∧
  List.filter is_CloseHandle (new_calls w (protection.enable sdk e w).2) = [] ∧
  cout (protection.enable sdk e w).2 =
    cout w +:+ "[ERROR] Failed to create job object" +:+ endl.
Proof.
  intros Hok Hr Hc.
  assert (Ho : outcome_of e w = ContainerCreationFailed).
  { apply outcome_of_iff; [assumption|]. simpl. auto. }
  rewrite enable_result, enable_job_calls, enable_new_calls, enable_cout.
  rewrite List.filter_app, lookup_calls_no_CloseHandle, Ho.
  repeat split; reflexivity.
Qed.

Lemma enable_create_failure_witness :
  (protection.enable sdk_x64 (env_sample [] (-1073741670) 0 0) world0).1 = false ∧
  job_calls world0
    (protection.enable sdk_x64 (env_sample [] (-1073741670) 0 0) world0).2 =
    [call_NtCreateJobObject 0x02000000 0].
Proof.
  destruct (enable_create_failure sdk_x64
              (env_sample [] (-1073741670) 0 0) world0) as (H1 & H2 & _).
  - unfold Env_ok, is_LONG, LONG_MIN, LONG_MAX; simpl; lia.
  - unfold all_resolved; repeat split; vm_compute; congruence.
  - simpl; lia.
  - exact (conj H1 H2).
Defined.

(** X7. [enable] closes a handle exactly when it has one and fails: a run
    contains a [CloseHandle] call if and only if the lookups and the
    creation call succeeded and the attachment or the limit-setting call
    failed. There is then one such call and it is on the job handle; in
    every other run, the successful one included, there is none. *)
Theorem enable_close_iff (sdk : WindowsSDK) (e : Env) (w : World) :
  Env_ok e →
  (List.filter is_CloseHandle (new_calls w (protection.enable sdk e w).2) =
     [call_CloseHandle (job_handle e)] ↔
   all_resolved e w ∧ 0 <= NtCreateJobObject_status e ∧
   (NtAssignProcessToJobObject_status e < 0 ∨
    NtSetInformationJobObject_status e < 0)) ∧
  (List.filter is_CloseHandle (new_calls w (protection.enable sdk e w).2) =
     [] ↔
   ¬ (all_resolved e w ∧ 0 <= NtCreateJobObject_status e ∧
      (NtAssignProcessToJobObject_status e < 0 ∨
       NtSetInformationJobObject_status e < 0))).
Proof.
  intros Hok.
  pose proof (outcome_of_condition e w Hok) as Ho.
  rewrite enable_new_calls, List.filter_app, lookup_calls_no_CloseHandle.
  destruct (outcome_of e w); simpl in Ho; simpl;
    unfold close_call; split; split; intros H;
    try reflexivity; try discriminate H; try tauto; try lia.
Qed.

Lemma enable_close_iff_witness :
  List.filter is_CloseHandle
    (new_calls world0
       (protection.enable sdk_x64 (env_sample [] (-1) 0 0) world0).2) = [].
Proof.
  apply (enable_close_iff sdk_x64 (env_sample [] (-1) 0 0) world0).
  - unfold Env_ok, is_LONG, LONG_MIN, LONG_MAX; simpl; lia.
  - simpl. lia.
Defined.

(** X8. The job-object calls of a run of [enable] are always an initial
    part of the sequence create, attach, set limits, possibly followed by
    one [CloseHandle]: no primitive is called twice or out of order, the
    creation call always asks for [MAXIMUM_ALLOWED] with null attributes,
    and the attachment and all later calls are on the handle the creation
    call stored, the process attached being the pseudo-handle -1. *)
Theorem enable_call_sequences (sdk : WindowsSDK) (e : Env) (w : World) :
  ∃ (create attach set close : os_call),
    create = call_NtCreateJobObject (MAXIMUM_ALLOWED sdk) nullptr ∧
    attach = call_NtAssignProcessToJobObject (job_handle e) (-1) ∧
    set = call_NtSetInformationJobObject (job_handle e)
            (JobObjectExtendedLimitInformation sdk)
            (<["BasicLimitInformation.LimitFlags" :=
                 JOB_OBJECT_LIMIT_PROCESS_MEMORY sdk]>
               (<["ProcessMemoryLimit" := 4096]> ∅))
            (sizeof_JOBOBJECT_EXTENDED_LIMIT_INFORMATION sdk) ∧
    close = call_CloseHandle (job_handle e) ∧
    (job_calls w (protection.enable sdk e w).2 = [] ∨
     job_calls w (protection.enable sdk e w).2 = [create] ∨
     job_calls w (protection.enable sdk e w).2 = [create; attach; close] ∨
     job_calls w (protection.enable sdk e w).2 = [create; attach; set; close] ∨
     job_calls w (protection.enable sdk e w).2 = [create; attach; set]).
Proof.
  do 4 eexists. do 4 (split; [reflexivity|]).
  rewrite enable_job_calls.
  destruct (outcome_of e w); simpl; auto 6.
Qed.

(** ** [NT_SUCCESS] *)

(** X9. Because [NT_SUCCESS] converts its argument to [NTSTATUS] before
    comparing it with zero, its value depends on bit 31 of the argument
    alone, for an argument of any integer type: it is true exactly when
    that bit is clear. A status of warning or error severity (bit 31 set)
    is a failure, also when it is held in a wider or unsigned type; every
    other status, the informational ones included, is a success. *)
Theorem NT_SUCCESS_bit31 (Status : Z) :
  protection.NT_SUCCESS Status = negb (Z.testbit Status 31).
Proof.
  unfold protection.NT_SUCCESS, LONG_cast.
  rewrite Z.testbit_odd, Z.shiftr_div_pow2 by lia.
  pose proof (Z.div_mod Status (2 ^ 31) ltac:(lia)) as Hz.
  pose proof (Z.mod_pos_bound Status (2 ^ 31) ltac:(lia)) as Hr.
  pose proof (Z.div_mod (Status + 2 ^ 31) (2 ^ 32) ltac:(lia)) as Hm.
  pose proof (Z.mod_pos_bound (Status + 2 ^ 31) (2 ^ 32) ltac:(lia)) as Hb.
  pose proof (Z.div2_odd (Status / 2 ^ 31)) as Hq.
  destruct (Z.odd (Status / 2 ^ 31)); simpl in Hq |- *.
  - rewrite Z.geb_leb. apply Z.leb_gt. lia.
  - rewrite Z.geb_leb. apply Z.leb_le. lia.
Qed.

(** ** [log] *)

Lemma string_app_endl_inj (a b : string) : a +:+ endl = b +:+ endl → a = b.
Proof.
  revert b. induction a as [|x a IH]; intros [|y b] H.
  - reflexivity.
  - change (endl = String y (b +:+ endl)) in H. unfold endl in H.
    injection H as _ H. destruct b; discriminate H.
  - change (String x (a +:+ endl) = endl) in H. unfold endl in H.
    injection H as _ H. destruct a; discriminate H.
  - change (String x (a +:+ endl) = String y (b +:+ endl)) in H.
    injection H as -> H. f_equal. now apply IH.
Qed.

(** X10. For calls whose level is one of the three enumerators, what
    one call of [log] writes determines its arguments: two such calls that
    leave the same text on the console, starting from the same text, had
    the same level and the same formatted message. *)
Theorem log_injective
    (level1 level2 : logging.log_level) (message1 message2 : string)
    (w : World) :
  is_enumerator level1 →
  is_enumerator level2 →
  cout (logging.log level1 message1 w).2 =
    cout (logging.log level2 message2 w).2 →
  level1 = level2 ∧ message1 = message2.
Proof.
  intros H1 H2. rewrite !log_run. simpl. intros H.
  apply (inj (String.append (cout w))) in H.
  unfold log_line in H.
  destruct H1 as [-> | [-> | ->]], H2 as [-> | [-> | ->]];
    vm_compute in H; try discriminate H;
    (split; [reflexivity|]); apply string_app_endl_inj;
    injection H as H; exact H.
Qed.

Lemma log_injective_witness :
  logging.warning = logging.warning ∧ "low memory" = "low memory".
Proof.
  apply (log_injective logging.warning logging.warning
           "low memory" "low memory" world0).
  - right; left; reflexivity.
  - right; left; reflexivity.
  - reflexivity.
Defined.

(** The restriction to enumerators is needed: a level that is none of the
    three is written with an empty prefix, so a message that starts like
    a prefix gives the text of another call. *)
Lemma log_unnamed_level_collision :
  cout (logging.log 3 "[INFO] x" world0).2 =
  cout (logging.log logging.info "x" world0).2.
Proof. reflexivity. Qed.

(** ** The entry point *)

(** X11. The entry point makes no operating-system call of its own: the
    calls of a run of [main] are those of its one run of [enable], and the
    statics are left as [enable] left them; a failure of [enable] is
    followed by no retry and no further call. *)
Theorem main_calls (sdk : WindowsSDK) (e : Env) (w : World) :
  calls (main sdk e w).2 = calls (protection.enable sdk e w).2 ∧
  calls (enable_protection sdk e w).2 = calls (protection.enable sdk e w).2 ∧
  (∀ T : nt_api_t,
     ntdll_static (main sdk e w).2 T =
       ntdll_static (protection.enable sdk e w).2 T).
Proof.
  unfold main, enable_protection. unfold mbind, M_bind, mret, M_ret.
  destruct (protection.enable sdk e w) as [r w'].
  destruct r; rewrite !log_run; simpl; auto.
Qed.
